(** * Eternal AI MCP server: the polling handler, the response parser and
      the credential store of [main.py]

    The development embeds these parts of [main.py]:
    - [get_api_key] / [set_api_key] (lines 32-47), the module-level
      credential with its fallback to the process environment;
    - [parse_generate_response] (lines 439-462), the two-shape parser of
      the generate endpoints;
    - [handle_smart_poll_result] (lines 312-391), the bounded polling
      loop, with the clock, the sleeps, the requests and the console log
      made explicit;
    - the three other handlers that use the credential (lines 172-309);
    - [handle_display_media] and [detect_mime_type] (lines 394-436 and
      465-490), with [urlparse], [response.content] and [base64.b64encode]
      taken as parameters;
    - [list_tools] and [call_tool] (lines 49-169).

    Conventions of the model.
    - A Python [str] is a [string] of bytes (UTF-8).  [str.lower] acts on
      the ASCII letters; the handler only compares the lowered text with
      ASCII words that have no letter k in them, so the Unicode cases of
      [str.lower] cannot change the result of a comparison.
    - A decoded JSON document is a [json] value; a [dict] is a
      [gmap string json] (the order of its keys is not recorded).
    - Wall-clock readings are rationals, in seconds.  The clock is moved by
      the sleeps and by the requests only: a sleep takes the time asked
      for or longer, a request takes any time that is not negative.
    - The world scripts the replies of the remote API: its i-th request
      gets the i-th reply, whatever is asked. *)

From Stdlib Require Import Ascii String QArith Lqa.
From stdpp Require Import gmap strings list fin_maps pretty.

Local Set Warnings "-register-all".

(** ** Python values *)

(** What [json.loads] produces ([response.json()]) and what a tool call
    passes as [arguments].  A float is carried by the text [repr] gives it
    (0.5, 1e+20, inf, nan, ...): the handlers print floats and compare
    them with zero, nothing else.  A text that is no float's [repr] is an
    input the program never sees; the theorems hold of those too. *)
Inductive json :=
  | JNull
  | JBool (b : bool)
  | JInt (n : Z)
  | JFloat (repr : string)
  | JStr (s : string)
  | JArr (l : list json)
  | JObj (m : gmap string json).

(** [d.get(key, default)] *)
Definition get (d : gmap string json) (key : string) (dflt : json) : json :=
  default dflt (d !! key).

(** [isinstance(v, dict)] *)
Definition is_dict (v : json) : bool :=
  match v with JObj _ => true | _ => false end.

(** Truth value of an object, as [if v:] and [not v] test it. *)
Definition truthy (v : json) : bool :=
  match v with
  | JNull => false
  | JBool b => b
  | JInt n => negb (n =? 0)%Z
  | JFloat r => negb (String.eqb r "0.0" || String.eqb r "-0.0")
  | JStr s => negb (String.eqb s "")
  | JArr l => match l with [] => false | _ => true end
  | JObj m => negb (bool_decide (m = ∅))
  end.

(** Truth value of a [str | None]. *)
Definition truthy_str (o : option string) : bool :=
  match o with
  | Some s => negb (String.eqb s "")
  | None => false
  end.

(** *** Text of a value: [str(v)] and [repr(v)] *)

Definition is_upper (c : ascii) : bool :=
  let n := nat_of_ascii c in (65 <=? n)%nat && (n <=? 90)%nat.

Definition lower_ascii (c : ascii) : ascii :=
  if is_upper c then ascii_of_nat (nat_of_ascii c + 32) else c.

(** [s.lower()] *)
Fixpoint lower (s : string) : string :=
  match s with
  | EmptyString => EmptyString
  | String c s' => String (lower_ascii c) (lower s')
  end.

Fixpoint contains (c : ascii) (s : string) : bool :=
  match s with
  | EmptyString => false
  | String c' s' => Ascii.eqb c c' || contains c s'
  end.

Definition hex_digit (n : nat) : ascii :=
  ascii_of_nat (if (n <? 10)%nat then 48 + n else 87 + n).

(** One character of [repr(s)], [q] being the quote chosen for [s]. *)
Definition repr_char (q c : ascii) : string :=
  let n := nat_of_ascii c in
  if Ascii.eqb c q || Ascii.eqb c "\"%char then String "\"%char (String c "")
  else if (n =? 9)%nat then "\t"
  else if (n =? 10)%nat then "\n"
  else if (n =? 13)%nat then "\r"
  else if (n <? 32)%nat || (n =? 127)%nat then
    String "\"%char (String "x"%char
      (String (hex_digit (n / 16)) (String (hex_digit (n mod 16)) "")))
  else String c "".

Fixpoint repr_chars (q : ascii) (s : string) : string :=
  match s with
  | EmptyString => EmptyString
  | String c s' => repr_char q c +:+ repr_chars q s'
  end.

Definition apostrophe : ascii := ascii_of_nat 39.
Definition double_quote : ascii := ascii_of_nat 34.

(** [repr(s)] for a string: single quotes, unless the text has a single
    quote and no double quote. *)
Definition repr_str (s : string) : string :=
  let q := if contains apostrophe s && negb (contains double_quote s)
           then double_quote else apostrophe in
  String q (repr_chars q s +:+ String q "").

(** [", ".join(l)] *)
Fixpoint join_comma (l : list string) : string :=
  match l with
  | [] => ""
  | [x] => x
  | x :: l' => x +:+ ", " +:+ join_comma l'
  end.

(** [repr(v)].  The entries of a dict come in the order of the map, where
    Python has the order of insertion; bytes above 127 are kept as they
    are, as [repr] keeps printable non-ASCII characters. *)
Fixpoint py_repr (v : json) : string :=
  match v with
  | JNull => "None"
  | JBool true => "True"
  | JBool false => "False"
  | JInt n => pretty n
  | JFloat r => r
  | JStr s => repr_str s
  | JArr l => "[" +:+ join_comma (map py_repr l) +:+ "]"
  | JObj m =>
      "{" +:+ join_comma
                (map_fold (λ k x acc, (repr_str k +:+ ": " +:+ py_repr x) :: acc)
                          [] m) +:+ "}"
  end.

(** [str(v)]: the text itself for a string, [repr(v)] for the rest. *)
Definition py_str (v : json) : string :=
  match v with
  | JStr s => s
  | _ => py_repr v
  end.

(** ** The credential (lines 32-47) *)

(** The state of the process the handlers read: the module constant
    [ETERNAL_AI_API_BASE] (line 22), the module global [_api_key] (line 32)
    and [os.environ]. *)
Record process := {
  ETERNAL_AI_API_BASE : string;
  _api_key : option string;
  environ : gmap string string;
}.

Definition get_api_key (p : process) : option string :=
  if truthy_str (_api_key p) then _api_key p
  else environ p !! "ETERNAL_AI_API_KEY".

Definition set_api_key (key : string) (p : process) : process :=
  {| ETERNAL_AI_API_BASE := ETERNAL_AI_API_BASE p;
     _api_key := Some key; environ := environ p |}.

(** The state right after the module is imported in the environment
    [env] (lines 22 and 32). *)
Definition at_import (env : gmap string string) : process :=
  {| ETERNAL_AI_API_BASE :=
       default "https://open.eternalai.org" (env !! "ETERNAL_AI_API_BASE");
     _api_key := None; environ := env |}.

(** ** [parse_generate_response] (lines 439-462) *)

Definition parse_generate_response (data : gmap string json)
  : gmap string json :=
  match data !! "data" with
  | Some (JObj nested_data) =>
      {[ "request_id" :=
           get nested_data "request_id" (get data "request_id" (JStr ""));
         "status" := get nested_data "status" (JStr "");
         "result" := get nested_data "result" (JStr "");
         "progress" := get nested_data "progress" (JInt 0);
         "status_code" := get data "status" JNull ]}
  | _ =>
      {[ "request_id" := get data "request_id" (JStr "");
         "status" := get data "status" (JStr "");
         "result" := get data "result" (JStr "");
         "progress" := get data "progress" (JInt 0) ]}
  end.

(** ** The world [handle_smart_poll_result] runs in *)

(** A length of time that cannot be negative, in seconds. *)
Record duration := { num : N; den : positive }.

Definition seconds (d : duration) : Q := Z.of_N (num d) # den d.

(** What one request comes to, as a handler sees it: the three calls
    [client.get] (or [client.post]), [raise_for_status] and
    [response.json] either all succeed, or one of them raises. *)
Inductive reply :=
  | Body (data : json)
  | NotJSON                                          (* [response.json()] raises *)
  | HTTPStatusError (status_code : Z) (text : string) (* [raise_for_status] raises *)
  | RequestError (e : string).                       (* [client.get] raises: timeout, connection *)

Inductive effect :=
  | Sleep (secs : Q)              (* [await asyncio.sleep(secs)] *)
  | HttpGet (url : string) (params : gmap string json) (headers : gmap string string)
                                  (* [await client.get(url, params, headers)] *)
  | HttpPost (url : string) (headers : gmap string string) (payload : gmap string json)
                                  (* [await client.post(url, headers, json)] *)
  | Print (line : string).

Record world := {
  clock : Q;                          (* what [time.time()] reads *)
  trace : list effect;                (* what has been done, oldest first *)
  network : nat → reply * duration;   (* the i-th request: its reply and how long it takes *)
  requests : nat;                     (* requests made so far *)
  oversleep : nat → duration;         (* by how much the i-th sleep overshoots *)
  sleeps : nat;                       (* sleeps made so far *)
}.

(** Exceptions that no [except] clause of the handler catches. *)
Inductive exn := JSONDecodeError | AttributeError | TypeError.

Inductive result (A : Type) :=
  | Returned (a : A)
  | Raised (e : exn).
Arguments Returned {A} a.
Arguments Raised {A} e.

Definition io (A : Type) : Type := world → result A * world.

#[global] Instance io_ret : MRet io := λ A a w, (Returned a, w).
#[global] Instance io_bind : MBind io := λ A B f m w,
  match m w with
  | (Returned a, w') => f a w'
  | (Raised e, w') => (Raised e, w')
  end.

Definition raise {A} (e : exn) : io A := λ w, (Raised e, w).

Definition time : io Q := λ w, (Returned (clock w), w).

(** The world after [await asyncio.sleep(secs)]: at least [secs] later. *)
Definition slept (secs : Q) (w : world) : world :=
  {| clock := clock w + secs + seconds (oversleep w (sleeps w));
     trace := trace w ++ [Sleep secs];
     network := network w; requests := requests w;
     oversleep := oversleep w; sleeps := S (sleeps w) |}.

Definition printed (line : string) (w : world) : world :=
  {| clock := clock w; trace := trace w ++ [Print line];
     network := network w; requests := requests w;
     oversleep := oversleep w; sleeps := sleeps w |}.

(** The world after the next request [e], whatever its reply. *)
Definition requested (e : effect) (w : world) : world :=
  {| clock := clock w + seconds (network w (requests w)).2;
     trace := trace w ++ [e];
     network := network w; requests := S (requests w);
     oversleep := oversleep w; sleeps := sleeps w |}.

(** The GET of the polling loop (lines 348-351): no parameters, the
    credential as the only header. *)
Definition poll_request (url api_key : string) : effect :=
  HttpGet url ∅ {[ "x-api-key" := api_key ]}.

Definition polled (url api_key : string) (w : world) : world :=
  requested (poll_request url api_key) w.

Definition sleep (secs : Q) : io unit := λ w, (Returned (), slept secs w).

Definition print (line : string) : io unit := λ w, (Returned (), printed line w).

Definition client_get (url : string) (params : gmap string json)
    (headers : gmap string string) : io reply := λ w,
  (Returned (network w (requests w)).1, requested (HttpGet url params headers) w).

Definition client_post (url : string) (headers : gmap string string)
    (payload : gmap string json) : io reply := λ w,
  (Returned (network w (requests w)).1, requested (HttpPost url headers payload) w).

(** [while True: body], where [body] yields [Some a] for [return a] and
    [None] when it falls through to the next iteration.  [None] from
    [while_true] itself means that [fuel] iterations were not enough. *)
Fixpoint while_true {A} (fuel : nat) (body : io (option A)) (w : world)
  : option (result A * world) :=
  match fuel with
  | O => None
  | S fuel' =>
      match body w with
      | (Returned None, w') => while_true fuel' body w'
      | (Returned (Some a), w') => Some (Returned a, w')
      | (Raised e, w') => Some (Raised e, w')
      end
  end.

(** ** [handle_smart_poll_result] (lines 312-391) *)

(** The [return] statements of the handler, one constructor each. *)
Inductive outcome :=
  | ApiKeyRequired                                       (* line 322 *)
  | RequestIdRequired                                    (* line 329 *)
  | Completed (data : json)                              (* line 361 *)
  | Failed (data : json)                                 (* line 365 *)
  | TimeoutPending (timeout_response : gmap string json) (* line 380 *)
  | ApiError (status_code : Z) (text : string)           (* line 386 *)
  | RequestErrorAfterTimeout (e : string).               (* line 390 *)

(** The [text] of the one [TextContent] a [return] builds. *)
Inductive content :=
  | Plain (s : string)
  | Dumps (v : json).                    (* [json.dumps(v, indent=2)] *)

Definition api_key_required : content :=
  Plain "API key is required. Please set ETERNAL_AI_API_KEY environment variable.".

(** The text of [except httpx.HTTPStatusError] (lines 204, 253, 307, 386). *)
Definition api_error (status_code : Z) (text : string) : content :=
  Plain ("API Error: " +:+ pretty status_code +:+ " - " +:+ text).

Definition text_of (o : outcome) : content :=
  match o with
  | ApiKeyRequired => api_key_required
  | RequestIdRequired => Plain "Request ID is required"
  | Completed data => Dumps data
  | Failed data => Dumps data
  | TimeoutPending timeout_response => Dumps (JObj timeout_response)
  | ApiError status_code text => api_error status_code text
  | RequestErrorAfterTimeout e => Plain ("Request Error after timeout: " +:+ e)
  end.

Definition VISUAL_EFFECTS_ENDPOINT : string := "/uncensored-ai/effects".
Definition GENERATE_EFFECT_ENDPOINT : string := "/generate".
Definition GENERATE_CUSTOM_ENDPOINT : string := "/base/generate".
Definition POLL_RESULT_ENDPOINT : string := "/poll-result".

Definition max_duration : Q := 120.
Definition poll_interval : Q := 15.

(** The dict built at lines 372-379. *)
Definition timeout_response (data : gmap string json) (request_id progress : json)
  : gmap string json :=
  {[ "request_id" := get data "request_id" request_id;
     "status" := get data "status" (JStr "pending");
     "progress" := progress;
     "result_url" := get data "result_url" (JStr "");
     "effect_type" := get data "effect_type" (JStr "");
     "message" := JStr "Task is still processing, please call this tool again" ]}.

(** One pass through the body of [while True] (lines 345-391). *)
Definition poll_once (url api_key : string) (request_id : json)
    (start_time : Q) : io (option outcome) :=
  now ← time;
  let elapsed := (now - start_time)%Q in
  r ← client_get url ∅ {[ "x-api-key" := api_key ]};
  match r with
  | Body (JObj data) =>
      let status := lower (py_str (get data "status" (JStr ""))) in
      let progress := get data "progress" (JInt 0) in
      if String.eqb status "success" || String.eqb status "completed" then
        print "[MCP] [smart_poll_result] Task completed successfully";;
        mret (Some (Completed (JObj data)))
      else if String.eqb status "failed" || String.eqb status "error" then
        print "[MCP] [smart_poll_result] Task failed";;
        mret (Some (Failed (JObj data)))
      else
        print ("[MCP] [smart_poll_result] Still processing (progress: "
                 +:+ py_str progress +:+ "%)...");;
        if Qle_bool max_duration elapsed then
          print "[MCP] [smart_poll_result] Timeout reached after 120s";;
          mret (Some (TimeoutPending (timeout_response data request_id progress)))
        else
          sleep poll_interval;;
          mret None
  | Body _ => raise AttributeError          (* [data.get] on a non-dict *)
  | NotJSON => raise JSONDecodeError
  | HTTPStatusError status_code text =>
      mret (Some (ApiError status_code text))
  | RequestError e =>
      print ("[MCP] [smart_poll_result] Poll error (will retry): " +:+ e);;
      if Qle_bool max_duration elapsed then
        mret (Some (RequestErrorAfterTimeout e))
      else
        sleep poll_interval;;
        mret None
  end.

(** The statements between the argument checks and the loop (lines
    336-339): the log line, the initial delay, and the reading of
    [start_time]. *)
Definition initial_wait (request_id : json) : io Q :=
  print ("[MCP] [smart_poll_result] Waiting 30 seconds before first poll for request_id: "
           +:+ py_str request_id);;
  sleep 30;;
  time.

Definition handle_smart_poll_result (fuel : nat) (p : process)
    (arguments : gmap string json) (w : world)
  : option (result outcome * world) :=
  let api_key := get_api_key p in
  if negb (truthy_str api_key) then Some (Returned ApiKeyRequired, w) else
  let request_id := get arguments "request_id" JNull in
  if negb (truthy request_id) then Some (Returned RequestIdRequired, w) else
  match initial_wait request_id w with
  | (Returned start_time, w') =>
      while_true fuel
        (poll_once (ETERNAL_AI_API_BASE p +:+ POLL_RESULT_ENDPOINT +:+ "/"
                      +:+ py_str request_id)
                   (default "" api_key) request_id start_time) w'
  | (Raised e, w') => Some (Raised e, w')
  end.

(** ** The other handlers that use the credential *)

(** The text of [except httpx.RequestError] (lines 206, 255, 309). *)
Definition request_error (e : string) : content := Plain ("Request Error: " +:+ e).

(** [v > 0] (line 183); [None] where Python raises [TypeError]. *)
Definition gt_zero (v : json) : option bool :=
  match v with
  | JInt n => Some (0 <? n)%Z
  | JBool b => Some b
  | JFloat r =>
      Some (negb (String.prefix "-" r) && negb (String.eqb r "0.0")
            && negb (String.eqb r "nan"))
  | _ => None
  end.

(** [handle_get_visual_effects] (lines 172-206). *)
Definition handle_get_visual_effects (p : process) (arguments : gmap string json)
  : io content :=
  let effect_type := get arguments "effect_type" (JStr "") in
  let page := get arguments "page" (JInt 1) in
  let params : gmap string json := ∅ in
  let params := if truthy effect_type
                then <["effect_type" := effect_type]> params else params in
  match gt_zero page with
  | None => raise TypeError
  | Some positive =>
      let params := if positive then <["page" := page]> params else params in
      let headers : gmap string string := ∅ in
      let api_key := get_api_key p in
      let headers := if truthy_str api_key
                     then <["x-api-key" := default "" api_key]> headers else headers in
      r ← client_get (ETERNAL_AI_API_BASE p +:+ VISUAL_EFFECTS_ENDPOINT) params headers;
      match r with
      | Body data => mret (Dumps data)
      | NotJSON => raise JSONDecodeError
      | HTTPStatusError status_code text => mret (api_error status_code text)
      | RequestError e => mret (request_error e)
      end
  end.

(** [json.dumps(parse_generate_response(data), indent=2)] for whatever
    [response.json()] gave (lines 249-250, 303-304): on a list or a string
    ["data" in data] is answered and [data.get] raises; on the other
    values that are no dict ["data" in data] raises. *)
Definition parsed (data : json) : io content :=
  match data with
  | JObj d => mret (Dumps (JObj (parse_generate_response d)))
  | JArr _ | JStr _ => raise AttributeError
  | JNull | JBool _ | JInt _ | JFloat _ => raise TypeError
  end.

(** The body of [async with httpx.AsyncClient(...)] in the two generate
    handlers (lines 238-255, 292-309). *)
Definition post_and_parse (url : string) (headers : gmap string string)
    (payload : gmap string json) : io content :=
  r ← client_post url headers payload;
  match r with
  | Body data => parsed data
  | NotJSON => raise JSONDecodeError
  | HTTPStatusError status_code text => mret (api_error status_code text)
  | RequestError e => mret (request_error e)
  end.

(** [handle_generate_with_effect] (lines 209-255). *)
Definition handle_generate_with_effect (p : process) (arguments : gmap string json)
  : io content :=
  let api_key := get_api_key p in
  if negb (truthy_str api_key) then mret api_key_required else
  let effect_id := get arguments "effect_id" JNull in
  if negb (truthy effect_id) then mret (Plain "Effect ID is required") else
  let images := get arguments "images" (JArr []) in
  let headers : gmap string string :=
    {[ "x-api-key" := default "" api_key; "Content-Type" := "application/json" ]} in
  let payload : gmap string json := {[ "effect_id" := effect_id ]} in
  let payload := if truthy images then <["images" := images]> payload else payload in
  post_and_parse (ETERNAL_AI_API_BASE p +:+ GENERATE_EFFECT_ENDPOINT) headers payload.

(** [handle_generate_custom_advanced] (lines 258-309). *)
Definition handle_generate_custom_advanced (p : process) (arguments : gmap string json)
  : io content :=
  let api_key := get_api_key p in
  if negb (truthy_str api_key) then mret api_key_required else
  let prompt := get arguments "prompt" JNull in
  let output_type := get arguments "type" JNull in
  if negb (truthy prompt) then mret (Plain "Prompt is required") else
  if negb (truthy output_type) then mret (Plain "Type is required (image or video)") else
  let images := get arguments "images" (JArr []) in
  let headers : gmap string string :=
    {[ "x-api-key" := default "" api_key; "Content-Type" := "application/json" ]} in
  let payload : gmap string json := {[ "prompt" := prompt; "type" := output_type ]} in
  let payload := if truthy images then <["images" := images]> payload else payload in
  post_and_parse (ETERNAL_AI_API_BASE p +:+ GENERATE_CUSTOM_ENDPOINT) headers payload.

(** ** [detect_mime_type] (lines 465-490) *)

(** [s.endswith(suffix)] *)
Fixpoint endswith (s suffix : string) : bool :=
  String.eqb s suffix
  || match s with
     | EmptyString => false
     | String _ s' => endswith s' suffix
     end.

Definition detect_mime_type (url_lower : string) : string :=
  if endswith url_lower ".jpg" || endswith url_lower ".jpeg" then "image/jpeg"
  else if endswith url_lower ".png" then "image/png"
  else if endswith url_lower ".gif" then "image/gif"
  else if endswith url_lower ".webp" then "image/webp"
  else if endswith url_lower ".bmp" then "image/bmp"
  else if endswith url_lower ".svg" then "image/svg+xml"
  else if endswith url_lower ".mp4" then "video/mp4"
  else if endswith url_lower ".webm" then "video/webm"
  else if endswith url_lower ".mov" then "video/quicktime"
  else if endswith url_lower ".avi" then "video/x-msvideo"
  else if endswith url_lower ".mkv" then "video/x-matroska"
  else "application/octet-stream".

(** ** [handle_display_media] (lines 394-436) and [call_tool] (lines 155-169) *)

(** What a tool call returns: a list of one [TextContent] or one
    [ImageContent]. *)
Inductive item :=
  | TextContent (text : content)
  | ImageContent (data : string) (mimeType : string).

(** The line feed of the Python literals. *)
Definition newline : string := String (ascii_of_nat 10) "".

(** The number of the request that comes next. *)
Definition request_number : io nat := λ w, (Returned (requests w), w).

(** A handler's result as [call_tool] hands it on. *)
Definition hand_on {A} (f : A → item) (r : result A * world)
  : option (result item * world) :=
  match r with
  | (Returned a, w') => Some (Returned (f a), w')
  | (Raised e, w') => Some (Raised e, w')
  end.

Section Media.
(** Three library functions are taken as they are: [urlparse(url).scheme],
    the bytes [response.content] of the i-th request, and
    [base64.b64encode(b).decode("utf-8")]. *)
Variable scheme_of : string → string.
Variable content_of : nat → string.
Variable b64encode : string → string.

(** [urlparse] raises [AttributeError] on a value that is no string; only
    the test for an image type reads the lowered URL, and no image
    extension has a letter that a character outside ASCII lowers to. *)
Definition handle_display_media (arguments : gmap string json) : io item :=
  let url := get arguments "url" (JStr "") in
  if negb (truthy url) then mret (TextContent (Plain "URL is required")) else
  match url with
  | JStr url =>
      let scheme := scheme_of url in
      if negb (String.eqb scheme "http" || String.eqb scheme "https") then
        mret (TextContent (Plain "URL must use http or https protocol"))
      else
        let url_lower := lower url in
        let mime_type := detect_mime_type url_lower in
        if String.prefix "image/" mime_type then
          i ← request_number;
          r ← client_get url ∅ ∅;
          match r with
          | Body _ | NotJSON =>
              let image_data := b64encode (content_of i) in
              mret (ImageContent image_data mime_type)
          | HTTPStatusError status_code _ =>
              mret (TextContent (Plain ("Failed to download image: " +:+ pretty status_code)))
          | RequestError e =>
              mret (TextContent (Plain ("Failed to download image: " +:+ e)))
          end
        else
          let markdown := "![Media](" +:+ url +:+ ")" +:+ newline +:+ newline
                            +:+ "Media URL: " +:+ url in
          mret (TextContent (Plain markdown))
  | _ => raise AttributeError
  end.

Definition call_tool (fuel : nat) (p : process) (name : string)
    (arguments : gmap string json) (w : world) : option (result item * world) :=
  if String.eqb name "get_visual_effects" then
    hand_on TextContent (handle_get_visual_effects p arguments w)
  else if String.eqb name "generate_with_effect" then
    hand_on TextContent (handle_generate_with_effect p arguments w)
  else if String.eqb name "generate_custom_advanced" then
    hand_on TextContent (handle_generate_custom_advanced p arguments w)
  else if String.eqb name "smart_poll_result" then
    handle_smart_poll_result fuel p arguments w ≫= hand_on (TextContent ∘ text_of)
  else if String.eqb name "display_media" then
    hand_on id (handle_display_media arguments w)
  else
    Some (Returned (TextContent (Plain ("Unknown tool: " +:+ name))), w).
End Media.

(** ** [list_tools] (lines 49-152) *)

Record Tool := {
  name : string;
  description : string;
  inputSchema : json;
}.

(** The schema of an array of strings (lines 80-86, 102-108). *)
Definition images_schema : json :=
  JObj {[ "type" := JStr "array";
          "description" := JStr "Array of image URLs or Base64 encoded images";
          "items" := JObj {[ "type" := JStr "string" ]} ]}.

Definition list_tools : list Tool :=
  [ {| name := "get_visual_effects";
       description := "Get a list of available visual effects for content generation. Filter by type (image/video) and paginate through results.";
       inputSchema :=
         JObj {[ "type" := JStr "object";
                 "properties" :=
                   JObj {[ "effect_type" :=
                             JObj {[ "type" := JStr "string";
                                     "description" :=
                                       JStr "Filter by effect type: 'image' or 'video'";
                                     "enum" := JArr [JStr "image"; JStr "video"] ]};
                           "page" :=
                             JObj {[ "type" := JStr "integer";
                                     "description" :=
                                       JStr "Page number for pagination (default: 1)";
                                     "default" := JInt 1 ]} ]} ]} |};
    {| name := "generate_with_effect";
       description := "Generate image or video content using a specific visual effect. Returns a request_id for polling the result. Requires Authentication via Bearer token (set ETERNAL_AI_API_KEY environment variable).";
       inputSchema :=
         JObj {[ "type" := JStr "object";
                 "properties" :=
                   JObj {[ "images" := images_schema;
                           "effect_id" :=
                             JObj {[ "type" := JStr "string";
                                     "description" :=
                                       JStr "The ID of the visual effect to apply" ]} ]};
                 "required" := JArr [JStr "effect_id"] ]} |};
    {| name := "generate_custom_advanced";
       description := "Generate custom image or video content using advanced prompts. Returns a request_id for polling the result. Requires Authentication via Bearer token (set ETERNAL_AI_API_KEY environment variable).";
       inputSchema :=
         JObj {[ "type" := JStr "object";
                 "properties" :=
                   JObj {[ "images" := images_schema;
                           "prompt" :=
                             JObj {[ "type" := JStr "string";
                                     "description" :=
                                       JStr "Custom text prompt describing the desired output" ]};
                           "type" :=
                             JObj {[ "type" := JStr "string";
                                     "description" :=
                                       JStr "Output type: 'image' or 'video'";
                                     "enum" := JArr [JStr "image"; JStr "video"] ]} ]};
                 "required" := JArr [JStr "prompt"; JStr "type"] ]} |};
    {| name := "smart_poll_result";
       description := "Smart polling tool that automatically checks the status of a generation task. Polls every 15s for up to 120s total. Returns final result or progress if still processing. Requires Authentication via Bearer token."
                        +:+ newline
                        +:+ "Tip for smart polling: In the video generation task, you should call this tool multiple times to get the latest progress.";
       inputSchema :=
         JObj {[ "type" := JStr "object";
                 "properties" :=
                   JObj {[ "request_id" :=
                             JObj {[ "type" := JStr "string";
                                     "description" :=
                                       JStr "The request ID returned from a generate call" ]} ]};
                 "required" := JArr [JStr "request_id"] ]} |};
    {| name := "display_media";
       description := "Render media (image or video) from a URL in markdown format for display. Supports images (jpg, png, gif, webp) and videos (mp4, webm, mov). For images, downloads and returns as base64 for inline display.";
       inputSchema :=
         JObj {[ "type" := JStr "object";
                 "properties" :=
                   JObj {[ "url" :=
                             JObj {[ "type" := JStr "string";
                                     "description" :=
                                       JStr "Media URL to render (must be http or https)" ]} ]};
                 "required" := JArr [JStr "url"] ]} |} ].

(** ** Vocabulary of the statements *)

(** The text the loop classifies (line 355). *)
Definition normalized_status (data : gmap string json) : string :=
  lower (py_str (get data "status" (JStr ""))).

Definition is_success (status : string) : bool :=
  String.eqb status "success" || String.eqb status "completed".

Definition is_failure (status : string) : bool :=
  String.eqb status "failed" || String.eqb status "error".

Definition is_terminal (status : string) : bool :=
  is_success status || is_failure status.

(** Time since [start_time], as line 345 computes it. *)
Definition elapsed (start_time : Q) (w : world) : Q := (clock w - start_time)%Q.

(** The reply the next GET of [w] will get. *)
Definition next_reply (w : world) : reply := (network w (requests w)).1.

Definition still_processing (progress : json) : string :=
  "[MCP] [smart_poll_result] Still processing (progress: "
    +:+ py_str progress +:+ "%)...".


(** The URL polled for [request_id] (line 349). *)
Definition poll_url (p : process) (request_id : json) : string :=
  ETERNAL_AI_API_BASE p +:+ POLL_RESULT_ENDPOINT +:+ "/" +:+ py_str request_id.

(** The world at line 339, after the log line and the initial delay. *)
Definition waited (request_id : json) (w : world) : world :=
  slept 30
    (printed ("[MCP] [smart_poll_result] Waiting 30 seconds before first poll for request_id: "
                +:+ py_str request_id) w).








Definition flat_keys : list string := ["request_id"; "status"; "result"; "progress"].

Definition is_nested (data : gmap string json) : bool :=
  match data !! "data" with Some (JObj _) => true | _ => false end.

(** The credential a handler works with: what [get_api_key] returns, when
    that is a non-empty key. *)
Definition credential (p : process) : option string :=
  if truthy_str (get_api_key p) then get_api_key p else None.

(** A request [e] carries [key] as its [x-api-key] header, or no such
    header when [key] is [None]; other effects carry nothing. *)
Definition carries (key : option string) (e : effect) : Prop :=
  match e with
  | HttpGet _ _ headers | HttpPost _ headers _ => headers !! "x-api-key" = key
  | Sleep _ | Print _ => True
  end.

(** What [w'] has in its trace after the trace of [w]. *)
Definition done_since (w w' : world) (P : effect → Prop) : Prop :=
  ∃ l, trace w' = trace w ++ l ∧ Forall P l.

(** The extensions [detect_mime_type] knows, each with its type, in the
    order of the tests. *)
Definition mime_table : list (string * string) :=
  [ (".jpg", "image/jpeg"); (".jpeg", "image/jpeg"); (".png", "image/png");
    (".gif", "image/gif"); (".webp", "image/webp"); (".bmp", "image/bmp");
    (".svg", "image/svg+xml"); (".mp4", "video/mp4"); (".webm", "video/webm");
    (".mov", "video/quicktime"); (".avi", "video/x-msvideo");
    (".mkv", "video/x-matroska") ].


(** [handle_display_media] takes [url] for an image. *)
Definition is_image (url : string) : bool :=
  String.prefix "image/" (detect_mime_type (lower url)).

(** The names under the key [required] of a tool's schema. *)
Definition required_of (t : Tool) : list string :=
  match inputSchema t with
  | JObj schema =>
      match schema !! "required" with
      | Some (JArr keys) =>
          omap (λ key, match key with JStr s => Some s | _ => None end) keys
      | _ => []
      end
  | _ => []
  end.

Definition unknown_tool (name : string) : item :=
  TextContent (Plain ("Unknown tool: " +:+ name)).

(** The last reply a run from [w] to [w'] got. *)
Definition last_reply (w w' : world) : reply := (network w (pred (requests w'))).1.



(** The text [handle_display_media] returns for what is no image (line
    435). *)
Definition markdown_of (url : string) : string :=
  "![Media](" +:+ url +:+ ")" +:+ newline +:+ newline +:+ "Media URL: " +:+ url.

(** [scheme in ("http", "https")] *)
Definition is_http (scheme : string) : bool :=
  String.eqb scheme "http" || String.eqb scheme "https".


(** The reply an outcome of the polling loop answers to. *)
Definition outcome_of_reply (request_id : json) (o : outcome) (r : reply) : Prop :=
  match o with
  | ApiKeyRequired | RequestIdRequired => False
  | Completed v =>
      ∃ data, v = JObj data ∧ r = Body (JObj data)
              ∧ is_success (normalized_status data) = true
  | Failed v =>
      ∃ data, v = JObj data ∧ r = Body (JObj data)
              ∧ is_success (normalized_status data) = false
              ∧ is_failure (normalized_status data) = true
  | TimeoutPending reported =>
      ∃ data, r = Body (JObj data)
              ∧ is_terminal (normalized_status data) = false
              ∧ reported = timeout_response data request_id (get data "progress" (JInt 0))
  | ApiError status_code text => r = HTTPStatusError status_code text
  | RequestErrorAfterTimeout e => r = RequestError e
  end.

(** The outcomes that line 370 and line 389 return, at the deadline. *)
Definition at_deadline (o : outcome) : bool :=
  match o with
  | TimeoutPending _ | RequestErrorAfterTimeout _ => true
  | _ => false
  end.


(** ** Concrete worlds and payloads, for the examples *)

Definition instant : duration := {| num := 0; den := 1 |}.

(** A world whose clock reads [now], where every request is answered [r]
    at once and no sleep overshoots. *)
Definition steady_world (now : Q) (r : reply) : world :=
  {| clock := now; trace := []; network := λ _, (r, instant); requests := 0;
     oversleep := λ _, instant; sleeps := 0 |}.

(** A world that plays the replies of [script] in order, then [r] for
    ever. *)
Definition scripted_world (now : Q) (script : list reply) (r : reply) : world :=
  {| clock := now; trace := []; network := λ i, (default r (script !! i), instant);
     requests := 0; oversleep := λ _, instant; sleeps := 0 |}.

Definition failed_body : gmap string json :=
  {[ "request_id" := JStr "r"; "status" := JStr "failed" ]}.

(** A connection error on the first GET, the failed job on the second. *)
Definition retry_world : world :=
  scripted_world 0 [RequestError "connection refused"; Body (JObj failed_body)] NotJSON.


Definition flat_payload : gmap string json :=
  {[ "request_id" := JStr "r1"; "status" := JStr "pending";
     "result" := JStr ""; "progress" := JInt 40 ]}.

Definition nested_payload : gmap string json :=
  {[ "status" := JInt 1; "request_id" := JStr "outer";
     "data" := JObj {[ "request_id" := JStr "inner"; "status" := JStr "pending" ]} ]}.

(** * Properties *)

(** ** Time *)

Lemma seconds_nonneg d : (0 <= seconds d)%Q.
Proof. unfold seconds, Qle; simpl. lia. Qed.

Lemma clock_slept secs w : (clock w + secs <= clock (slept secs w))%Q.
Proof.
  simpl. pose proof (seconds_nonneg (oversleep w (sleeps w))). lra.
Qed.

Lemma clock_polled url key w : (clock w <= clock (polled url key w))%Q.
Proof.
  simpl. pose proof (seconds_nonneg (network w (requests w)).2). lra.
Qed.



(** ** One iteration, case by case *)

Section Iteration.
Variables (url api_key : string) (request_id : json) (start_time : Q).

Let body := poll_once url api_key request_id start_time.

Lemma poll_once_unfold w :
  body w =
  match next_reply w with
  | Body (JObj data) =>
      let progress := get data "progress" (JInt 0) in
      if is_success (normalized_status data) then
        (Returned (Some (Completed (JObj data))),
         printed "[MCP] [smart_poll_result] Task completed successfully"
           (polled url api_key w))
      else if is_failure (normalized_status data) then
        (Returned (Some (Failed (JObj data))),
         printed "[MCP] [smart_poll_result] Task failed" (polled url api_key w))
      else if Qle_bool max_duration (elapsed start_time w) then
        (Returned (Some (TimeoutPending (timeout_response data request_id progress))),
         printed "[MCP] [smart_poll_result] Timeout reached after 120s"
           (printed (still_processing progress) (polled url api_key w)))
      else
        (Returned None,
         slept poll_interval
           (printed (still_processing progress) (polled url api_key w)))
  | Body _ => (Raised AttributeError, polled url api_key w)
  | NotJSON => (Raised JSONDecodeError, polled url api_key w)
  | HTTPStatusError status_code text =>
      (Returned (Some (ApiError status_code text)), polled url api_key w)
  | RequestError e =>
      let w1 := printed ("[MCP] [smart_poll_result] Poll error (will retry): " +:+ e)
                  (polled url api_key w) in
      if Qle_bool max_duration (elapsed start_time w) then
        (Returned (Some (RequestErrorAfterTimeout e)), w1)
      else (Returned None, slept poll_interval w1)
  end.
Proof.
  subst body. unfold poll_once, next_reply, is_success, is_failure, normalized_status, elapsed.
  unfold mbind, io_bind, mret, io_ret, time, client_get, print, sleep, raise.
  destruct (network w (requests w)).1 as [[]| | |]; try reflexivity.
  - cbv zeta. repeat case_match; reflexivity.
  - cbv zeta. repeat case_match; reflexivity.
Qed.
End Iteration.

(** ** Terminal status and the deadline *)

(** C1. An iteration whose reply carries a terminal status (success,
    completed, failed, error) returns the terminal outcome whatever the
    elapsed time is, in particular at or past [max_duration]: the status
    is classified before the deadline is looked at, so the iteration never
    yields the timeout-pending outcome, and it ends the loop. *)
Theorem terminal_status_wins_over_deadline
    (url api_key : string) (request_id : json) (start_time : Q)
    (w : world) (data : gmap string json) :
  next_reply w = Body (JObj data) →
  is_terminal (normalized_status data) = true →
  ∃ o w',
    poll_once url api_key request_id start_time w = (Returned (Some o), w')
    ∧ (o = Completed (JObj data) ∨ o = Failed (JObj data))
    ∧ (∀ reported, o ≠ TimeoutPending reported)
    ∧ sleeps w' = sleeps w
    ∧ ∀ fuel, while_true (S fuel) (poll_once url api_key request_id start_time) w
              = Some (Returned o, w').
Proof.
  intros Hreply Hterm. unfold is_terminal in Hterm.
  pose proof (poll_once_unfold url api_key request_id start_time w) as E.
  rewrite Hreply in E. cbv zeta in E.
  destruct (is_success (normalized_status data)) eqn:Hs.
  - eexists _, _. split; [exact E|]. split; [by left|].
    split; [done|]. split; [done|]. intros fuel. simpl. by rewrite E.
  - simpl in Hterm. rewrite Hterm in E.
    eexists _, _. split; [exact E|]. split; [by right|].
    split; [done|]. split; [done|]. intros fuel. simpl. by rewrite E.
Qed.

Lemma terminal_status_wins_over_deadline_witness :
  ∃ o w',
    poll_once "u" "k" (JStr "r") 0
      (steady_world 500 (Body (JObj {[ "status" := JStr "Completed" ]})))
    = (Returned (Some o), w')
    ∧ (o = Completed (JObj {[ "status" := JStr "Completed" ]})
       ∨ o = Failed (JObj {[ "status" := JStr "Completed" ]}))
    ∧ (∀ reported, o ≠ TimeoutPending reported)
    ∧ sleeps w' = sleeps (steady_world 500 (Body (JObj {[ "status" := JStr "Completed" ]})))
    ∧ ∀ fuel, while_true (S fuel) (poll_once "u" "k" (JStr "r") 0)
                (steady_world 500 (Body (JObj {[ "status" := JStr "Completed" ]})))
              = Some (Returned o, w').
Proof.
  apply (terminal_status_wins_over_deadline "u" "k" (JStr "r") 0
           (steady_world 500 (Body (JObj {[ "status" := JStr "Completed" ]})))
           {[ "status" := JStr "Completed" ]}).
  - reflexivity.
  - vm_compute. reflexivity.
Defined.

(** ** The loop *)


Section Loop.
Variables (url api_key : string) (request_id : json) (start_time : Q).

Let body := poll_once url api_key request_id start_time.




(** Every iteration makes one request and leaves the script alone. *)
Lemma poll_once_requests w r w' :
  body w = (r, w') → requests w' = S (requests w) ∧ network w' = network w.
Proof.
  subst body. rewrite poll_once_unfold.
  destruct (next_reply w) as [[]| | |]; cbv zeta;
    repeat case_match; by intros [= <- <-].
Qed.


End Loop.

(** ** The handler as a whole *)

Lemma handle_smart_poll_result_unfold fuel p arguments w :
  handle_smart_poll_result fuel p arguments w =
  let request_id := get arguments "request_id" JNull in
  if negb (truthy_str (get_api_key p)) then Some (Returned ApiKeyRequired, w)
  else if negb (truthy request_id) then Some (Returned RequestIdRequired, w)
  else while_true fuel
         (poll_once (poll_url p request_id) (default "" (get_api_key p)) request_id
            (clock (waited request_id w)))
         (waited request_id w).
Proof. reflexivity. Qed.

(** ** Exceptions that leave the handler *)

Section Faults.
Variables (url api_key : string) (request_id : json) (start_time : Q).

Let body := poll_once url api_key request_id start_time.


End Faults.




Example pending_for_ever :
  let w := steady_world 1000 (Body (JObj {[ "status" := JStr "pending" ]})) in
  ∃ w', handle_smart_poll_result 9 (set_api_key "k" (at_import ∅))
          {[ "request_id" := JStr "abc" ]} w
        = Some (Returned (TimeoutPending
                  (timeout_response {[ "status" := JStr "pending" ]} (JStr "abc") (JInt 0))),
                w')
        ∧ requests w' = 9 ∧ sleeps w' = 9 ∧ Qeq (clock w') 1150.
Proof. eexists. split; [vm_compute; reflexivity|]. by vm_compute. Qed.

(** ** Preconditions *)

(** C3. When no credential is available (none, or an empty one) or the
    [request_id] argument is missing or empty, the handler returns the
    precondition message at once, for any fuel, in the world it was
    called in: the clock has not moved and the trace has no new sleep and
    no new GET. *)
Theorem precondition_failure_is_immediate
    (fuel : nat) (p : process) (arguments : gmap string json) (w : world) :
  get_api_key p = None ∨ get_api_key p = Some ""
  ∨ arguments !! "request_id" = None ∨ arguments !! "request_id" = Some (JStr "") →
  handle_smart_poll_result fuel p arguments w
  = Some (Returned (if truthy_str (get_api_key p)
                    then RequestIdRequired else ApiKeyRequired), w).
Proof.
  intros H. rewrite handle_smart_poll_result_unfold. cbv zeta.
  destruct (truthy_str (get_api_key p)) eqn:Hkey; [|done]. simpl.
  destruct H as [H|[H|[H|H]]].
  - by rewrite H in Hkey.
  - by rewrite H in Hkey.
  - unfold get. by rewrite H.
  - unfold get. by rewrite H.
Qed.

Lemma precondition_failure_is_immediate_witness :
  handle_smart_poll_result 0 (at_import ∅) {[ "request_id" := JStr "abc" ]}
    (steady_world 7 NotJSON)
  = Some (Returned ApiKeyRequired, steady_world 7 NotJSON)
  ∧ handle_smart_poll_result 9 (set_api_key "k" (at_import ∅)) {[ "request_id" := JStr "" ]}
      (steady_world 7 NotJSON)
    = Some (Returned RequestIdRequired, steady_world 7 NotJSON).
Proof.
  split.
  - etrans.
    + apply (precondition_failure_is_immediate 0 (at_import ∅)
               {[ "request_id" := JStr "abc" ]} (steady_world 7 NotJSON)).
      left. reflexivity.
    + reflexivity.
  - etrans.
    + apply (precondition_failure_is_immediate 9 (set_api_key "k" (at_import ∅))
               {[ "request_id" := JStr "" ]} (steady_world 7 NotJSON)).
      right; right; right. reflexivity.
    + reflexivity.
Defined.

(** ** Errors of the transport *)




(** C5. On an HTTP status error the iteration returns the error outcome
    at once, whatever the elapsed time: the loop ends there, and the world
    it ends in is the one right after the GET, with no sleep and no
    further GET. *)
Theorem http_status_error_is_immediate
    (url api_key : string) (request_id : json) (start_time : Q)
    (w : world) (status_code : Z) (text : string) :
  next_reply w = HTTPStatusError status_code text →
  ∃ w',
    (∀ fuel, while_true (S fuel) (poll_once url api_key request_id start_time) w
             = Some (Returned (ApiError status_code text), w'))
    ∧ trace w' = trace w ++ [HttpGet url ∅ {[ "x-api-key" := api_key ]}]
    ∧ requests w' = S (requests w)
    ∧ sleeps w' = sleeps w.
Proof.
  intros Hreply. exists (polled url api_key w). split; [|done].
  intros fuel. simpl. rewrite poll_once_unfold. by rewrite Hreply.
Qed.

Lemma http_status_error_is_immediate_witness :
  ∃ w',
    (∀ fuel, while_true (S fuel) (poll_once "u" "k" (JStr "r") 0)
               (steady_world 45 (HTTPStatusError 404 "not found"))
             = Some (Returned (ApiError 404 "not found"), w'))
    ∧ trace w' = [HttpGet "u" ∅ {[ "x-api-key" := "k" ]}]
    ∧ requests w' = 1%nat
    ∧ sleeps w' = 0%nat.
Proof.
  exact (http_status_error_is_immediate "u" "k" (JStr "r") 0
           (steady_world 45 (HTTPStatusError 404 "not found")) 404 "not found" eq_refl).
Defined.

(** ** Classification of the status *)













(** ** Progress *)




(** ** [parse_generate_response] *)

Lemma parse_generate_response_flat (data : gmap string json) :
  dom data = list_to_set flat_keys → parse_generate_response data = data.
Proof.
  intros Hdom.
  assert (Hin : ∀ k, is_Some (data !! k) ↔ k ∈ flat_keys).
  { intros k. by rewrite <- elem_of_dom, Hdom, elem_of_list_to_set. }
  assert (Hnone : data !! "data" = None).
  { apply eq_None_not_Some. rewrite Hin. unfold flat_keys.
    rewrite !elem_of_cons, elem_of_nil. intros [|[|[|[|[]]]]]; discriminate. }
  unfold parse_generate_response. rewrite Hnone.
  apply map_eq. intros i.
  destruct (decide (i ∈ flat_keys)) as [Hi|Hi].
  - pose proof (proj2 (Hin i) Hi) as [x Hx]. unfold flat_keys in Hi.
    rewrite !elem_of_cons, elem_of_nil in Hi.
    destruct Hi as [->|[->|[->|[->|[]]]]]; unfold get; rewrite Hx; reflexivity.
  - assert (data !! i = None) as ->.
    { apply eq_None_not_Some. by rewrite Hin. }
    unfold flat_keys in Hi. rewrite !elem_of_cons, elem_of_nil in Hi.
    rewrite !lookup_insert_ne, lookup_singleton_ne; [done|intros <-; intuition..].
Qed.

Lemma parse_generate_response_flat_dom (data : gmap string json) :
  is_nested data = false →
  dom (parse_generate_response data) = list_to_set flat_keys.
Proof.
  unfold is_nested, parse_generate_response. intros H.
  assert (∀ a b c d : json,
            dom ({[ "request_id" := a; "status" := b; "result" := c; "progress" := d ]}
                   : gmap string json)
            = list_to_set flat_keys) as Hdom.
  { intros. rewrite !dom_insert_L, dom_singleton_L. simpl.
    by rewrite (right_id_L ∅ (∪)). }
  destruct (data !! "data") as [[]|]; try apply Hdom. discriminate.
Qed.

(** C9. [parse_generate_response] (1) gives back, unchanged, a dict whose
    keys are exactly request_id, status, result and progress, and so (2)
    is idempotent on every flat payload; (3) on a payload whose [data]
    field is a dict, each of the four fields that the inner dict has is
    taken from it, whatever the top level holds, and the outer status is
    kept under the key status_code, next to the inner status. *)
Theorem parse_generate_response_shapes (data : gmap string json) :
  (dom data = list_to_set flat_keys → parse_generate_response data = data)
  ∧ (is_nested data = false →
       parse_generate_response (parse_generate_response data)
       = parse_generate_response data)
  ∧ (∀ nested_data,
       data !! "data" = Some (JObj nested_data) →
       (∀ key v, key ∈ flat_keys → nested_data !! key = Some v →
                 parse_generate_response data !! key = Some v)
       ∧ (∀ status_code, data !! "status" = Some status_code →
            parse_generate_response data !! "status_code" = Some status_code)
       ∧ dom (parse_generate_response data) = list_to_set ("status_code" :: flat_keys)).
Proof.
  split; [apply parse_generate_response_flat|split].
  - intros Hflat. apply parse_generate_response_flat.
    by apply parse_generate_response_flat_dom.
  - intros nested_data Hdata. unfold parse_generate_response. rewrite Hdata.
    split; [|split].
    + intros key v Hkey Hv. unfold flat_keys in Hkey.
      rewrite !elem_of_cons, elem_of_nil in Hkey.
      destruct Hkey as [->|[->|[->|[->|[]]]]]; unfold get; rewrite Hv; reflexivity.
    + intros status_code Hstatus. unfold get. rewrite Hstatus. reflexivity.
    + rewrite !dom_insert_L, dom_singleton_L. simpl.
      rewrite (right_id_L ∅ (∪)).
      apply set_eq. intros x. rewrite !elem_of_union, !elem_of_singleton. tauto.
Qed.

Lemma parse_generate_response_shapes_witness :
  parse_generate_response flat_payload = flat_payload
  ∧ parse_generate_response nested_payload !! "request_id" = Some (JStr "inner")
  ∧ parse_generate_response nested_payload !! "status" = Some (JStr "pending")
  ∧ parse_generate_response nested_payload !! "status_code" = Some (JInt 1).
Proof.
  destruct (parse_generate_response_shapes flat_payload) as (Hflat & _ & _).
  destruct (parse_generate_response_shapes nested_payload) as (_ & _ & Hnested).
  destruct (Hnested {[ "request_id" := JStr "inner"; "status" := JStr "pending" ]} eq_refl)
    as (Hinner & Houter & _).
  split; [apply Hflat; vm_compute; reflexivity|].
  split; [apply Hinner; [constructor|reflexivity]|].
  split; [apply Hinner; [do 1 constructor; constructor|reflexivity]|].
  apply Houter. reflexivity.
Defined.

(** ** The credential *)

Lemma done_since_refl w P : done_since w w P.
Proof. exists []. by rewrite app_nil_r. Qed.

Lemma done_since_trans w1 w2 w3 P :
  done_since w1 w2 P → done_since w2 w3 P → done_since w1 w3 P.
Proof.
  intros (l1 & E1 & H1) (l2 & E2 & H2). exists (l1 ++ l2).
  split; [by rewrite E2, E1, app_assoc|by apply Forall_app].
Qed.

Lemma done_since_printed w line P : P (Print line) → done_since w (printed line w) P.
Proof. intros H. exists [Print line]. split; [done|by repeat constructor]. Qed.

Lemma done_since_slept w secs P : P (Sleep secs) → done_since w (slept secs w) P.
Proof. intros H. exists [Sleep secs]. split; [done|by repeat constructor]. Qed.

Lemma done_since_requested w e P : P e → done_since w (requested e w) P.
Proof. intros H. exists [e]. split; [done|by repeat constructor]. Qed.

Lemma poll_once_carries url api_key request_id start_time w r w' :
  poll_once url api_key request_id start_time w = (r, w') →
  done_since w w' (carries (Some api_key)).
Proof.
  rewrite poll_once_unfold.
  assert (Hget : done_since w (polled url api_key w) (carries (Some api_key))).
  { apply done_since_requested. reflexivity. }
  destruct (next_reply w) as [[]| | |]; cbv zeta; repeat case_match;
    intros [= <- <-]; try done;
    repeat first
      [ exact Hget
      | eapply done_since_trans; [|by apply done_since_printed]
      | eapply done_since_trans; [|by apply done_since_slept] ].
Qed.

Lemma while_true_carries url api_key request_id start_time fuel : ∀ w r w',
  while_true fuel (poll_once url api_key request_id start_time) w = Some (r, w') →
  done_since w w' (carries (Some api_key)).
Proof.
  induction fuel as [|fuel IH]; intros w r w'; [discriminate|].
  simpl. destruct (poll_once _ _ _ _ w) as [[[o|]|e] w1] eqn:E;
    apply poll_once_carries in E.
  - by intros [= <- <-].
  - intros Hrun. eapply done_since_trans; [exact E|]. by eapply IH.
  - by intros [= <- <-].
Qed.

Lemma handle_smart_poll_result_carries fuel p arguments w r w' :
  handle_smart_poll_result fuel p arguments w = Some (r, w') →
  done_since w w' (carries (credential p)).
Proof.
  rewrite handle_smart_poll_result_unfold. cbv zeta. unfold credential.
  destruct (truthy_str (get_api_key p)) eqn:Hkey; simpl;
    [|intros [= <- <-]; apply done_since_refl].
  destruct (truthy _); simpl; [|intros [= <- <-]; apply done_since_refl].
  intros Hrun. apply while_true_carries in Hrun.
  destruct (get_api_key p) as [key|]; [|discriminate]. simpl in Hrun.
  eapply done_since_trans; [|exact Hrun].
  eapply done_since_trans; [by apply done_since_printed|by apply done_since_slept].
Qed.

Lemma post_and_parse_carries url headers payload w r w' :
  post_and_parse url headers payload w = (r, w') →
  done_since w w' (carries (headers !! "x-api-key")).
Proof.
  unfold post_and_parse, mbind, io_bind, client_post, parsed, mret, io_ret, raise.
  assert (Hpost : done_since w (requested (HttpPost url headers payload) w)
                    (carries (headers !! "x-api-key"))).
  { by apply done_since_requested. }
  destruct (network w (requests w)).1 as [[]| | |]; by intros [= <- <-].
Qed.

Lemma handle_get_visual_effects_carries p arguments w r w' :
  handle_get_visual_effects p arguments w = (r, w') →
  done_since w w' (carries (credential p)).
Proof.
  unfold handle_get_visual_effects, credential. cbv zeta.
  destruct (gt_zero _); [|intros [= <- <-]; apply done_since_refl].
  unfold mbind, io_bind, client_get, mret, io_ret, raise.
  match goal with |- context [requested ?e w] =>
    assert (Hget : done_since w (requested e w)
                     (carries (if truthy_str (get_api_key p)
                               then get_api_key p else None)))
  end.
  { apply done_since_requested. simpl.
    destruct (get_api_key p) as [key|]; [|done]. simpl.
    destruct (negb _); [by rewrite lookup_insert_eq|done]. }
  destruct (network w (requests w)).1 as [| | |]; by intros [= <- <-].
Qed.

Lemma handle_generate_with_effect_carries p arguments w r w' :
  handle_generate_with_effect p arguments w = (r, w') →
  done_since w w' (carries (credential p)).
Proof.
  unfold handle_generate_with_effect, credential. cbv zeta.
  destruct (truthy_str (get_api_key p)) eqn:Hkey; simpl;
    [|intros [= <- <-]; apply done_since_refl].
  destruct (truthy _); simpl; [|intros [= <- <-]; apply done_since_refl].
  intros Hrun. apply post_and_parse_carries in Hrun.
  destruct (get_api_key p) as [key|]; [|discriminate]. exact Hrun.
Qed.

Lemma handle_generate_custom_advanced_carries p arguments w r w' :
  handle_generate_custom_advanced p arguments w = (r, w') →
  done_since w w' (carries (credential p)).
Proof.
  unfold handle_generate_custom_advanced, credential. cbv zeta.
  destruct (truthy_str (get_api_key p)) eqn:Hkey; simpl;
    [|intros [= <- <-]; apply done_since_refl].
  destruct (truthy _); simpl; [|intros [= <- <-]; apply done_since_refl].
  destruct (truthy _); simpl; [|intros [= <- <-]; apply done_since_refl].
  intros Hrun. apply post_and_parse_carries in Hrun.
  destruct (get_api_key p) as [key|]; [|discriminate]. exact Hrun.
Qed.

(** C10. The credential is resolved in one place, with a fixed order: (1)
    a non-empty key stored by [set_api_key] is what [get_api_key] returns,
    whatever the environment holds; (2) with no key stored, or an empty
    one, [get_api_key] returns the environment variable
    ETERNAL_AI_API_KEY, and [None] when that is absent; (3) each handler
    that uses a credential depends on the stored key and on the
    environment through the value of [get_api_key] alone: two processes
    with the same API base for which [get_api_key] returns the same value
    make every such handler behave the same, on all arguments and in all
    worlds; (4) every request such a handler sends carries that value as
    its x-api-key header (and no such header when [get_api_key] has no
    key to give, which only [handle_get_visual_effects] goes on with). *)
Theorem credential_is_resolved_by_get_api_key :
  (∀ p key, key ≠ "" → get_api_key (set_api_key key p) = Some key)
  ∧ (∀ p, _api_key p = None ∨ _api_key p = Some "" →
          get_api_key p = environ p !! "ETERNAL_AI_API_KEY"
          ∧ (environ p !! "ETERNAL_AI_API_KEY" = None → get_api_key p = None))
  ∧ (∀ p p',
       ETERNAL_AI_API_BASE p = ETERNAL_AI_API_BASE p' →
       get_api_key p = get_api_key p' →
       ∀ arguments w,
         handle_get_visual_effects p arguments w
         = handle_get_visual_effects p' arguments w
         ∧ handle_generate_with_effect p arguments w
           = handle_generate_with_effect p' arguments w
         ∧ handle_generate_custom_advanced p arguments w
           = handle_generate_custom_advanced p' arguments w
         ∧ ∀ fuel, handle_smart_poll_result fuel p arguments w
                   = handle_smart_poll_result fuel p' arguments w)
  ∧ (∀ p arguments w w',
       (∀ r, handle_get_visual_effects p arguments w = (r, w') →
             done_since w w' (carries (credential p)))
       ∧ (∀ r, handle_generate_with_effect p arguments w = (r, w') →
               done_since w w' (carries (credential p)))
       ∧ (∀ r, handle_generate_custom_advanced p arguments w = (r, w') →
               done_since w w' (carries (credential p)))
       ∧ (∀ fuel r, handle_smart_poll_result fuel p arguments w = Some (r, w') →
                    done_since w w' (carries (credential p)))).
Proof.
  split; [|split; [|split]].
  - intros p key Hkey. unfold get_api_key, set_api_key. simpl.
    destruct (String.eqb_spec key ""); [done|reflexivity].
  - intros p Hnone. unfold get_api_key.
    assert (truthy_str (_api_key p) = false) as ->.
    { by destruct Hnone as [->| ->]. }
    split; [reflexivity|done].
  - intros p p' Hbase Hkey arguments w.
    unfold handle_get_visual_effects, handle_generate_with_effect,
      handle_generate_custom_advanced, handle_smart_poll_result.
    rewrite Hbase, Hkey. done.
  - intros p arguments w w'. split; [|split; [|split]].
    + intros r. apply handle_get_visual_effects_carries.
    + intros r. apply handle_generate_with_effect_carries.
    + intros r. apply handle_generate_custom_advanced_carries.
    + intros fuel r. apply handle_smart_poll_result_carries.
Qed.

Lemma credential_is_resolved_by_get_api_key_witness :
  get_api_key (set_api_key "stored" (at_import {[ "ETERNAL_AI_API_KEY" := "from-env" ]}))
  = Some "stored"
  ∧ get_api_key (set_api_key "" (at_import {[ "ETERNAL_AI_API_KEY" := "from-env" ]}))
    = Some "from-env"
  ∧ get_api_key (at_import ∅) = None.
Proof.
  destruct credential_is_resolved_by_get_api_key as (Hstored & Henv & _ & _).
  split; [by apply Hstored|]. split.
  - exact (proj1 (Henv (set_api_key "" (at_import {[ "ETERNAL_AI_API_KEY" := "from-env" ]}))
                   (or_intror eq_refl))).
  - exact (proj2 (Henv (at_import ∅) (or_introl eq_refl)) eq_refl).
Defined.


(** * Further properties *)

(** ** [detect_mime_type] *)

Lemma endswith_refl s : endswith s s = true.
Proof. destruct s as [|c s]; [reflexivity|]. cbn [endswith]. by rewrite String.eqb_refl. Qed.

(** [endswith] is the suffix relation. *)
Lemma endswith_spec s suffix :
  endswith s suffix = true ↔ ∃ before, s = before +:+ suffix.
Proof.
  split.
  - induction s as [|c s IH]; cbn [endswith].
    + rewrite orb_false_r. intros H%String.eqb_eq. by exists "".
    + intros [H%String.eqb_eq|H]%orb_true_iff; [by exists ""|].
      destruct (IH H) as [before ->]. by exists (String c before).
  - intros [before ->]. induction before as [|c before IH].
    + apply endswith_refl.
    + change (String c before +:+ suffix) with (String c (before +:+ suffix)).
      cbn [endswith]. rewrite IH. apply orb_true_r.
Qed.

(** Two suffixes of one text: one is a suffix of the other. *)
Lemma endswith_comparable s e1 e2 :
  endswith s e1 = true → endswith s e2 = true →
  endswith e1 e2 = true ∨ endswith e2 e1 = true.
Proof.
  induction s as [|c s IH]; cbn [endswith].
  - rewrite !orb_false_r. intros <-%String.eqb_eq <-%String.eqb_eq. by left.
  - intros [<-%String.eqb_eq|H1]%orb_true_iff H2; [left; cbn [endswith]; exact H2|].
    apply orb_true_iff in H2 as [<-%String.eqb_eq|H2]; [right; cbn [endswith]|by apply IH].
    by rewrite H1, orb_true_r.
Qed.

(** No extension of the table ends with another one, unless the two have
    the same type. *)
Lemma mime_table_exclusive ext mime ext' mime' :
  (ext, mime) ∈ mime_table → (ext', mime') ∈ mime_table →
  endswith ext ext' = true ∨ endswith ext' ext = true → mime = mime'.
Proof.
  unfold mime_table. rewrite !elem_of_cons, !elem_of_nil. intros H H'.
  repeat (destruct H as [[= -> ->]|H]; [|]); try done;
    repeat (destruct H' as [[= -> ->]|H']; [|]); try done;
    vm_compute; intros [|]; try reflexivity; discriminate.
Qed.

(** The type comes from an extension of the table that the text ends
    with, or it is application/octet-stream and the text ends with none. *)
Lemma detect_mime_type_first url_lower :
  (∃ ext, (ext, detect_mime_type url_lower) ∈ mime_table
          ∧ endswith url_lower ext = true)
  ∨ (detect_mime_type url_lower = "application/octet-stream"
     ∧ ∀ ext mime, (ext, mime) ∈ mime_table → endswith url_lower ext = false).
Proof.
  unfold detect_mime_type, mime_table.
  repeat match goal with
  | |- context [if endswith url_lower ?e || _ then _ else _] =>
      destruct (endswith url_lower e) eqn:?; simpl;
      [left; exists e; split; [|done]; rewrite !elem_of_cons; tauto|]
  | |- context [if endswith url_lower ?e then _ else _] =>
      destruct (endswith url_lower e) eqn:?; simpl;
      [left; exists e; split; [|done]; rewrite !elem_of_cons; tauto|]
  end.
  right. split; [done|]. intros ext mime. rewrite !elem_of_cons, elem_of_nil.
  intros H. repeat (destruct H as [[= -> ->]|H]; [done|]). done.
Qed.

Lemma detect_mime_type_ext url_lower ext mime :
  (ext, mime) ∈ mime_table → endswith url_lower ext = true →
  detect_mime_type url_lower = mime.
Proof.
  intros Hin Hend.
  destruct (detect_mime_type_first url_lower) as [(ext' & Hin' & Hend')|[_ Hnone]].
  - symmetry. eapply mime_table_exclusive; [exact Hin|exact Hin'|].
    by eapply endswith_comparable.
  - by rewrite (Hnone ext mime Hin) in Hend.
Qed.

(** X1. The type is decided by the extension alone, whatever the order
    of the tests: (1) a text that ends with an extension of the table gets
    that extension's type; (2) a text that ends with none of them gets
    application/octet-stream, and only such a text does. *)
Theorem detect_mime_type_by_extension (url_lower : string) :
  (∀ ext mime, (ext, mime) ∈ mime_table → endswith url_lower ext = true →
               detect_mime_type url_lower = mime)
  ∧ (detect_mime_type url_lower = "application/octet-stream"
     ↔ ∀ ext mime, (ext, mime) ∈ mime_table → endswith url_lower ext = false).
Proof.
  pose proof (detect_mime_type_first url_lower) as Hfirst.
  split.
  - apply detect_mime_type_ext.
  - split.
    + intros Hoctet. destruct Hfirst as [(ext' & Hin' & _)|[_ Hnone]]; [|done].
      rewrite Hoctet in Hin'. unfold mime_table in Hin'.
      rewrite !elem_of_cons, elem_of_nil in Hin'.
      repeat (destruct Hin' as [Hin'|Hin']; [discriminate|]). done.
    + intros Hnone. destruct Hfirst as [(ext' & Hin' & Hend')|[Hoctet _]]; [|done].
      by rewrite (Hnone _ _ Hin') in Hend'.
Qed.

Lemma detect_mime_type_by_extension_witness :
  detect_mime_type "https://cdn.example/a.b/photo.jpeg" = "image/jpeg".
Proof.
  apply (proj1 (detect_mime_type_by_extension "https://cdn.example/a.b/photo.jpeg")
               ".jpeg" "image/jpeg").
  - unfold mime_table. rewrite !elem_of_cons. tauto.
  - reflexivity.
Defined.

(** ** [handle_display_media] *)


Section MediaFacts.
Variable scheme_of : string → string.
Variable content_of : nat → string.
Variable b64encode : string → string.

Let display_media := handle_display_media scheme_of content_of b64encode.

(** The handler on a URL that is a non-empty string. *)
Lemma handle_display_media_string arguments url w :
  arguments !! "url" = Some (JStr url) → url ≠ "" →
  display_media arguments w =
  if negb (is_http (scheme_of url)) then
    (Returned (TextContent (Plain "URL must use http or https protocol")), w)
  else if is_image url then
    (match next_reply w with
     | Body _ | NotJSON =>
         Returned (ImageContent (b64encode (content_of (requests w)))
                     (detect_mime_type (lower url)))
     | HTTPStatusError status_code _ =>
         Returned (TextContent (Plain ("Failed to download image: " +:+ pretty status_code)))
     | RequestError e =>
         Returned (TextContent (Plain ("Failed to download image: " +:+ e)))
     end, requested (HttpGet url ∅ ∅) w)
  else (Returned (TextContent (Plain (markdown_of url))), w).
Proof.
  intros Hurl Hne. subst display_media. unfold handle_display_media, get.
  rewrite Hurl. change (default (JStr "") (Some (JStr url))) with (JStr url).
  cbv zeta. cbn [truthy]. rewrite (proj2 (String.eqb_neq url "") Hne).
  simpl negb. cbv iota.
  fold (is_http (scheme_of url)). destruct (is_http _); simpl negb; cbv iota; [|done].
  fold (is_image url). destruct (is_image url); [|done].
  unfold mbind, io_bind, request_number, client_get, mret, io_ret, next_reply.
  cbn [negb]. by destruct (network w (requests w)).1 as [| | |].
Qed.

(** The handler on a URL that is missing or empty, and on one that is no
    string. *)
Lemma handle_display_media_other arguments w :
  (arguments !! "url" = None ∨ arguments !! "url" = Some (JStr "") →
   display_media arguments w = (Returned (TextContent (Plain "URL is required")), w))
  ∧ (∀ v, arguments !! "url" = Some v → (∀ url, v ≠ JStr url) →
          display_media arguments w
          = if truthy v then (Raised AttributeError, w)
            else (Returned (TextContent (Plain "URL is required")), w)).
Proof.
  subst display_media. unfold handle_display_media, get. split.
  - by intros [->| ->].
  - intros v -> Hv. change (default (JStr "") (Some v)) with v. cbv zeta.
    destruct v as [|b|n|r|s|l|m]; cbn [truthy]; try done.
    + by destruct b.
    + by destruct (n =? 0)%Z.
    + by destruct (_ || _).
    + by destruct (Hv s).
    + by destruct l.
    + by destruct (bool_decide _).
Qed.

(** X2. [handle_display_media] never sends a credential and never asks
    twice: whatever the arguments, it leaves the world as it is, or it
    has sent one GET with no header and no parameter, to the very URL it
    was given, and that only for an http(s) URL with an image
    extension. *)
Theorem display_media_sends_no_credential (arguments : gmap string json) (w : world) :
  (display_media arguments w).2 = w
  ∨ ∃ url, arguments !! "url" = Some (JStr url)
           ∧ is_http (scheme_of url) = true ∧ is_image url = true
           ∧ (display_media arguments w).2 = requested (HttpGet url ∅ ∅) w.
Proof.
  destruct (arguments !! "url") as [v|] eqn:Hurl; cycle 1.
  { left. by rewrite (proj1 (handle_display_media_other arguments w) (or_introl Hurl)). }
  assert ((∃ url, v = JStr url) ∨ ∀ url, v ≠ JStr url) as [[url ->]|Hv].
  { destruct v; try (by right); left; by eexists. }
  2: { left. rewrite (proj2 (handle_display_media_other arguments w) v Hurl Hv).
       by destruct (truthy v). }
  destruct (decide (url = "")) as [->|Hne].
  { left. by rewrite (proj1 (handle_display_media_other arguments w) (or_intror Hurl)). }
  rewrite (handle_display_media_string arguments url w Hurl Hne).
  destruct (is_http (scheme_of url)) eqn:Hhttp; simpl negb; cbv iota; [|by left].
  destruct (is_image url) eqn:Himage; [|by left].
  right. by exists url.
Qed.


End MediaFacts.



(** ** [call_tool] and [list_tools] *)

Lemma text_of_is_not_unknown o name : text_of o ≠ Plain ("Unknown tool: " +:+ name).
Proof. destruct o; discriminate. Qed.

Lemma post_and_parse_is_not_unknown url headers payload w c w' name :
  post_and_parse url headers payload w = (Returned c, w') →
  c ≠ Plain ("Unknown tool: " +:+ name).
Proof.
  unfold post_and_parse, parsed, mbind, io_bind, client_post, mret, io_ret, raise,
    api_error, request_error.
  destruct (network w (requests w)).1 as [[]| | |]; intros [= <- <-]; discriminate.
Qed.

Lemma handle_get_visual_effects_is_not_unknown p arguments w c w' name :
  handle_get_visual_effects p arguments w = (Returned c, w') →
  c ≠ Plain ("Unknown tool: " +:+ name).
Proof.
  unfold handle_get_visual_effects. cbv zeta.
  destruct (gt_zero _); [|discriminate].
  unfold mbind, io_bind, client_get, mret, io_ret, raise, api_error, request_error.
  destruct (network w (requests w)).1 as [| | |]; intros [= <- <-]; discriminate.
Qed.

Lemma handle_generate_with_effect_is_not_unknown p arguments w c w' name :
  handle_generate_with_effect p arguments w = (Returned c, w') →
  c ≠ Plain ("Unknown tool: " +:+ name).
Proof.
  unfold handle_generate_with_effect. cbv zeta.
  destruct (negb (truthy_str _)); [intros [= <- <-]; discriminate|].
  destruct (negb (truthy _)); [intros [= <- <-]; discriminate|].
  apply post_and_parse_is_not_unknown.
Qed.

Lemma handle_generate_custom_advanced_is_not_unknown p arguments w c w' name :
  handle_generate_custom_advanced p arguments w = (Returned c, w') →
  c ≠ Plain ("Unknown tool: " +:+ name).
Proof.
  unfold handle_generate_custom_advanced. cbv zeta.
  destruct (negb (truthy_str _)); [intros [= <- <-]; discriminate|].
  destruct (negb (truthy _)); [intros [= <- <-]; discriminate|].
  destruct (negb (truthy _)); [intros [= <- <-]; discriminate|].
  apply post_and_parse_is_not_unknown.
Qed.

Section Dispatch.
Variable scheme_of : string → string.
Variable content_of : nat → string.
Variable b64encode : string → string.

Let display_media := handle_display_media scheme_of content_of b64encode.
Let call := call_tool scheme_of content_of b64encode.

Lemma handle_display_media_is_not_unknown arguments w it w' name :
  display_media arguments w = (Returned it, w') → it ≠ unknown_tool name.
Proof.
  subst display_media. unfold handle_display_media. cbv zeta.
  destruct (negb (truthy _)); [intros [= <- <-]; discriminate|].
  destruct (get arguments "url" (JStr "")); try discriminate.
  destruct (negb (_ || _)); [intros [= <- <-]; discriminate|].
  destruct (String.prefix _ _); [|intros [= <- <-]; discriminate].
  unfold mbind, io_bind, request_number, client_get, mret, io_ret.
  destruct (network w (requests w)).1 as [| | |]; intros [= <- <-]; discriminate.
Qed.

(** X5. [call_tool] and [list_tools] agree: (1) the five listed names
    are distinct; (2) a name that is not listed is answered
    "Unknown tool: name", in the world as it is; (3) a listed name is
    handed to a handler, none of which ever gives that answer. *)
Theorem call_tool_knows_the_listed_tools :
  NoDup (map name list_tools)
  ∧ (∀ fuel p tool arguments w,
       tool ∉ map name list_tools →
       call fuel p tool arguments w = Some (Returned (unknown_tool tool), w))
  ∧ (∀ fuel p tool arguments w w',
       tool ∈ map name list_tools →
       call fuel p tool arguments w ≠ Some (Returned (unknown_tool tool), w')).
Proof.
  split; [|split].
  - apply (bool_decide_unpack _). by vm_compute.
  - intros fuel p tool arguments w. cbn. rewrite !elem_of_cons, elem_of_nil.
    intros Hnot. subst call. unfold call_tool.
    repeat match goal with
    | |- context [String.eqb tool ?s] =>
        destruct (String.eqb_spec tool s) as [->|_]; [exfalso; apply Hnot; auto 10|]
    end.
    done.
  - intros fuel p tool arguments w w'. cbn. rewrite !elem_of_cons, elem_of_nil.
    subst call. unfold call_tool.
    intros [->|[->|[->|[->|[->|[]]]]]]; cbn [String.eqb Ascii.eqb Bool.eqb].
    + destruct (handle_get_visual_effects _ _ _) as [[c|e] w1] eqn:E; [|discriminate].
      intros [= Hc <-]. by eapply handle_get_visual_effects_is_not_unknown.
    + destruct (handle_generate_with_effect _ _ _) as [[c|e] w1] eqn:E; [|discriminate].
      intros [= Hc <-]. by eapply handle_generate_with_effect_is_not_unknown.
    + destruct (handle_generate_custom_advanced _ _ _) as [[c|e] w1] eqn:E; [|discriminate].
      intros [= Hc <-]. by eapply handle_generate_custom_advanced_is_not_unknown.
    + destruct (handle_smart_poll_result _ _ _ _) as [[[o|e] w1]|]; [| |discriminate];
        [|discriminate].
      intros [= Hc <-]. by eapply text_of_is_not_unknown.
    + destruct (handle_display_media _ _ _ _ _) as [[it|e] w1] eqn:E; [|discriminate].
      intros [= Hc <-]. by eapply handle_display_media_is_not_unknown.
Qed.

(** X6. The arguments a schema of [list_tools] marks as required are
    checked by the handlers before anything is sent: calling a listed
    tool with such an argument missing, or empty, gives a plain text
    message in the world as it is (no request, no sleep, no log). *)
Theorem required_arguments_are_checked
    (fuel : nat) (p : process) (t : Tool) (key : string)
    (arguments : gmap string json) (w : world) :
  t ∈ list_tools → key ∈ required_of t →
  arguments !! key = None ∨ arguments !! key = Some (JStr "") →
  ∃ message,
    call fuel p (name t) arguments w = Some (Returned (TextContent (Plain message)), w).
Proof.
  unfold list_tools. rewrite !elem_of_cons, elem_of_nil.
  intros [->|[->|[->|[->|[->|[]]]]]];
    match goal with
    | |- key ∈ required_of ?t → _ =>
        let r := eval vm_compute in (required_of t) in change (required_of t) with r
    end;
    rewrite ?elem_of_cons, elem_of_nil; try done;
    subst call display_media; unfold call_tool;
    cbn [name String.eqb Ascii.eqb Bool.eqb].
  - intros [->|[]] Hkey. unfold handle_generate_with_effect, get. cbv zeta.
    destruct (negb (truthy_str _)); [by eexists|].
    destruct Hkey as [->| ->]; by eexists.
  - intros [->|[->|[]]] Hkey; unfold handle_generate_custom_advanced, get; cbv zeta;
      (destruct (negb (truthy_str _)); [by eexists|]).
    + destruct Hkey as [->| ->]; by eexists.
    + destruct (negb (truthy (default JNull (arguments !! "prompt")))); [by eexists|].
      destruct Hkey as [->| ->]; by eexists.
  - intros [->|[]] Hkey. unfold handle_smart_poll_result, get. cbv zeta.
    destruct (negb (truthy_str _)); [by eexists|].
    destruct Hkey as [->| ->]; by eexists.
  - intros [->|[]] Hkey. unfold handle_display_media, get. cbv zeta.
    destruct Hkey as [->| ->]; by eexists.
Qed.
End Dispatch.

Lemma call_tool_knows_the_listed_tools_witness :
  call_tool (λ _, "") (λ _, "") (λ b, b) 0 (at_import ∅) "get_effects" ∅
    (steady_world 0 NotJSON)
  = Some (Returned (unknown_tool "get_effects"), steady_world 0 NotJSON).
Proof.
  apply (proj1 (proj2 (call_tool_knows_the_listed_tools (λ _, "") (λ _, "") (λ b, b)))).
  apply (bool_decide_unpack _). by vm_compute.
Defined.

Lemma required_arguments_are_checked_witness :
  ∃ message,
    call_tool (λ _, "") (λ _, "") (λ b, b) 9 (set_api_key "k" (at_import ∅))
      "generate_custom_advanced" {[ "prompt" := JStr "a cat" ]} (steady_world 0 NotJSON)
    = Some (Returned (TextContent (Plain message)), steady_world 0 NotJSON).
Proof.
  exact (required_arguments_are_checked (λ _, "") (λ _, "") (λ b, b) 9
           (set_api_key "k" (at_import ∅))
           (default (Build_Tool "" "" JNull) (list_tools !! 2%nat)) "type"
           {[ "prompt" := JStr "a cat" ]} (steady_world 0 NotJSON)
           ltac:(cbn; repeat constructor) ltac:(cbn; repeat constructor)
           ltac:(left; reflexivity)).
Defined.

(** ** The generate handlers *)




(** ** [handle_get_visual_effects] *)

(** X8. [handle_get_visual_effects], with [page] the argument of that
    name or 1 when there is none: (1) a [page] that is no number raises
    [TypeError] before anything is sent; (2) otherwise one GET goes to the
    effects endpoint, whether or not there is a credential; its [page]
    parameter is there exactly when [page] is positive, its [effect_type]
    parameter exactly when that argument is a true value, and there is no
    other parameter; (3) any JSON body, object or not, is returned as it
    is, and the two kinds of errors are returned as texts. *)
Theorem get_visual_effects_query
    (p : process) (arguments : gmap string json) (w : world) :
  (gt_zero (get arguments "page" (JInt 1)) = None →
   handle_get_visual_effects p arguments w = (Raised TypeError, w))
  ∧ (∀ positive, gt_zero (get arguments "page" (JInt 1)) = Some positive →
       ∃ params headers,
         (handle_get_visual_effects p arguments w).2
         = requested (HttpGet (ETERNAL_AI_API_BASE p +:+ "/uncensored-ai/effects")
                        params headers) w
         ∧ params !! "page"
           = (if positive then Some (get arguments "page" (JInt 1)) else None)
         ∧ params !! "effect_type"
           = (if truthy (get arguments "effect_type" (JStr ""))
              then arguments !! "effect_type" else None)
         ∧ dom params ⊆ {[ "page"; "effect_type" ]}
         ∧ headers !! "x-api-key" = credential p
         ∧ (∀ data, next_reply w = Body data →
                    (handle_get_visual_effects p arguments w).1 = Returned (Dumps data))
         ∧ (∀ status_code text, next_reply w = HTTPStatusError status_code text →
              (handle_get_visual_effects p arguments w).1
              = Returned (api_error status_code text))
         ∧ (∀ e, next_reply w = RequestError e →
                 (handle_get_visual_effects p arguments w).1
                 = Returned (request_error e))).
Proof.
  unfold handle_get_visual_effects. cbv zeta. split.
  - by intros ->.
  - intros positive ->.
    unfold mbind, io_bind, client_get, mret, io_ret, raise, next_reply,
      VISUAL_EFFECTS_ENDPOINT.
    eexists _, _. split; [by destruct (network w (requests w)).1|].
    split; [|split; [|split; [|split]]].
    + destruct positive; [by rewrite lookup_insert_eq|].
      destruct (truthy _); [by rewrite lookup_insert_ne|done].
    + destruct positive; [rewrite lookup_insert_ne by done|];
        (destruct (truthy (get arguments "effect_type" (JStr ""))) eqn:Hty;
         [rewrite lookup_insert_eq; unfold get in *;
          by destruct (arguments !! "effect_type")|done]).
    + destruct positive, (truthy _);
        rewrite ?dom_insert_L, ?dom_empty_L; apply (bool_decide_unpack _); by vm_compute.
    + unfold credential. destruct (get_api_key p) as [key|]; [|done]. simpl.
      destruct (negb _); [by rewrite lookup_insert_eq|done].
    + destruct (network w (requests w)).1; repeat split; intros; simplify_eq; done.
Qed.

Lemma get_visual_effects_query_witness :
  handle_get_visual_effects (at_import ∅) {[ "page" := JStr "2" ]} (steady_world 0 NotJSON)
  = (Raised TypeError, steady_world 0 NotJSON).
Proof.
  exact (proj1 (get_visual_effects_query (at_import ∅) {[ "page" := JStr "2" ]}
                  (steady_world 0 NotJSON)) eq_refl).
Defined.

(** ** More on [parse_generate_response] *)

Lemma parse_generate_response_nested_dom data nested_data :
  data !! "data" = Some (JObj nested_data) →
  dom (parse_generate_response data) = list_to_set ("status_code" :: flat_keys).
Proof.
  intros Hdata. unfold parse_generate_response. rewrite Hdata.
  rewrite !dom_insert_L, dom_singleton_L. simpl.
  rewrite (right_id_L ∅ (∪)).
  apply set_eq. intros x. rewrite !elem_of_union, !elem_of_singleton. tauto.
Qed.

Lemma parse_generate_response_of_nested (a b c d e : json) :
  parse_generate_response
    {[ "request_id" := a; "status" := b; "result" := c; "progress" := d;
       "status_code" := e ]}
  = delete "status_code"
      ({[ "request_id" := a; "status" := b; "result" := c; "progress" := d;
          "status_code" := e ]} : gmap string json).
Proof. reflexivity. Qed.

(** X9. What [parse_generate_response] returns has the four keys
    request_id, status, result and progress, and the key status_code
    besides exactly for a nested payload; applying the function to its
    own result keeps the four fields and drops status_code, so that a
    third application changes nothing any more. *)
Theorem parse_generate_response_twice (data : gmap string json) :
  dom (parse_generate_response data)
  = list_to_set (if is_nested data then "status_code" :: flat_keys else flat_keys)
  ∧ parse_generate_response (parse_generate_response data)
    = delete "status_code" (parse_generate_response data)
  ∧ parse_generate_response (parse_generate_response (parse_generate_response data))
    = parse_generate_response (parse_generate_response data).
Proof.
  assert (Htwice : parse_generate_response (parse_generate_response data)
                   = delete "status_code" (parse_generate_response data)).
  { destruct (is_nested data) eqn:Hnested.
    - unfold is_nested in Hnested.
      destruct (data !! "data") as [[| | | | | |nested_data]|] eqn:Hdata;
        try discriminate.
      assert (parse_generate_response data
              = {[ "request_id" :=
                     get nested_data "request_id" (get data "request_id" (JStr ""));
                   "status" := get nested_data "status" (JStr "");
                   "result" := get nested_data "result" (JStr "");
                   "progress" := get nested_data "progress" (JInt 0);
                   "status_code" := get data "status" JNull ]}) as ->.
      { unfold parse_generate_response. by rewrite Hdata. }
      apply parse_generate_response_of_nested.
    - rewrite parse_generate_response_flat
        by (by apply parse_generate_response_flat_dom).
      symmetry. apply delete_id. apply not_elem_of_dom.
      rewrite (parse_generate_response_flat_dom data Hnested).
      apply (bool_decide_unpack _). by vm_compute. }
  split; [|split; [exact Htwice|]].
  - destruct (is_nested data) eqn:Hnested.
    + unfold is_nested in Hnested.
      destruct (data !! "data") as [[]|] eqn:Hdata; try discriminate.
      by eapply parse_generate_response_nested_dom.
    + by apply parse_generate_response_flat_dom.
  - apply parse_generate_response_flat, parse_generate_response_flat_dom.
    unfold is_nested.
    assert (parse_generate_response data !! "data" = None) as ->; [|done].
    apply not_elem_of_dom. destruct (is_nested data) eqn:Hnested.
    + unfold is_nested in Hnested.
      destruct (data !! "data") as [[]|] eqn:Hdata; try discriminate.
      rewrite (parse_generate_response_nested_dom _ _ Hdata).
      apply (bool_decide_unpack _). by vm_compute.
    + rewrite (parse_generate_response_flat_dom data Hnested).
      apply (bool_decide_unpack _). by vm_compute.
Qed.

(** X10. Fields that are missing.  In a nested payload a missing inner
    request_id is taken from the top level (and is the empty string when
    that has none either), while a missing inner status, result or
    progress is the empty string, the empty string and 0, whatever the top
    level holds under these names; a missing outer status gives
    [None] as status_code.  A payload whose [data] field is there but is
    no dict is read as a flat one: the fields come from the top level,
    with the same defaults, and the [data] field is dropped. *)
Theorem parse_generate_response_missing_fields (data : gmap string json) :
  (∀ nested_data, data !! "data" = Some (JObj nested_data) →
     (nested_data !! "request_id" = None →
      parse_generate_response data !! "request_id"
      = Some (default (JStr "") (data !! "request_id")))
     ∧ (nested_data !! "status" = None →
        parse_generate_response data !! "status" = Some (JStr ""))
     ∧ (nested_data !! "result" = None →
        parse_generate_response data !! "result" = Some (JStr ""))
     ∧ (nested_data !! "progress" = None →
        parse_generate_response data !! "progress" = Some (JInt 0))
     ∧ (data !! "status" = None →
        parse_generate_response data !! "status_code" = Some JNull))
  ∧ (∀ v, data !! "data" = Some v → is_dict v = false →
       parse_generate_response data !! "request_id"
       = Some (default (JStr "") (data !! "request_id"))
       ∧ parse_generate_response data !! "status"
         = Some (default (JStr "") (data !! "status"))
       ∧ parse_generate_response data !! "result"
         = Some (default (JStr "") (data !! "result"))
       ∧ parse_generate_response data !! "progress"
         = Some (default (JInt 0) (data !! "progress"))
       ∧ parse_generate_response data !! "data" = None
       ∧ parse_generate_response data !! "status_code" = None).
Proof.
  split.
  - intros nested_data Hdata. unfold parse_generate_response, get. rewrite Hdata.
    repeat split; intros ->; reflexivity.
  - intros v Hdata Hv. unfold parse_generate_response, get. rewrite Hdata.
    destruct v; try discriminate; repeat split; reflexivity.
Qed.

Lemma parse_generate_response_missing_fields_witness :
  parse_generate_response
    {[ "status" := JInt 1; "request_id" := JStr "outer"; "data" := JObj ∅ ]} !! "status"
  = Some (JStr "")
  ∧ parse_generate_response
      {[ "status" := JInt 1; "request_id" := JStr "outer"; "data" := JObj ∅ ]}
      !! "request_id"
    = Some (JStr "outer").
Proof.
  destruct (proj1 (parse_generate_response_missing_fields
                     {[ "status" := JInt 1; "request_id" := JStr "outer";
                        "data" := JObj ∅ ]}) ∅)
    as (Hid & Hstatus & _); [reflexivity|].
  split; [exact (Hstatus eq_refl)|exact (Hid eq_refl)].
Defined.

(** ** More on [handle_smart_poll_result] *)

Section Polling.
Variables (url api_key : string) (request_id : json) (start_time : Q).

Let body := poll_once url api_key request_id start_time.

(** An iteration that returns: the outcome answers to the reply of that
    iteration, and the two outcomes of the deadline come at the deadline
    only. *)
Lemma poll_once_outcome w o w' :
  body w = (Returned (Some o), w') →
  outcome_of_reply request_id o (next_reply w)
  ∧ (at_deadline o = true → (max_duration <= elapsed start_time w)%Q).
Proof.
  subst body. rewrite poll_once_unfold.
  destruct (next_reply w) as [[]| | |]; cbv zeta; try discriminate.
  - destruct (is_success _) eqn:Hs; [intros [= <- <-]; split; [by eexists|done]|].
    destruct (is_failure _) eqn:Hf; [intros [= <- <-]; split; [by eexists|done]|].
    destruct (Qle_bool _ _) eqn:Hd; intros [= <- <-].
    split; [|by intros _; apply Qle_bool_iff].
    eexists. split; [done|]. split; [|done]. unfold is_terminal. by rewrite Hs, Hf.
  - by intros [= <- <-].
  - destruct (Qle_bool _ _) eqn:Hd; intros [= <- <-].
    split; [done|]. by intros _; apply Qle_bool_iff.
Qed.

Lemma poll_once_clock w r w' : body w = (r, w') → (clock w <= clock w')%Q.
Proof.
  subst body. rewrite poll_once_unfold.
  pose proof (seconds_nonneg (network w (requests w)).2).
  pose proof (seconds_nonneg (oversleep w (sleeps w))).
  destruct (next_reply w) as [[]| | |]; cbv zeta; repeat case_match;
    intros [= <- <-]; simpl; unfold poll_interval; lra.
Qed.


(** The loop, from its first iteration to the one that ends it. *)
Lemma while_true_last fuel : ∀ w r w',
  while_true fuel body w = Some (r, w') →
  ∃ wl, body wl = (match r with Returned o => Returned (Some o) | Raised e => Raised e end, w')
        ∧ network wl = network w ∧ requests w ≤ requests wl
        ∧ (clock w <= clock wl)%Q.
Proof.
  induction fuel as [|fuel IH]; intros w r w'; [discriminate|].
  simpl. destruct (body w) as [[[o|]|e] w1] eqn:E.
  - intros [= <- <-]. exists w. split; [done|]. split; [done|]. split; [lia|lra].
  - intros Hrun. destruct (IH _ _ _ Hrun) as (wl & Hl & Hnet & Hreq & Hclock).
    pose proof (poll_once_clock _ _ _ E).
    apply poll_once_requests in E as [Hg Hn].
    exists wl. split; [done|]. split; [congruence|]. split; [lia|lra].
  - intros [= <- <-]. exists w. split; [done|]. split; [done|]. split; [lia|lra].
Qed.

End Polling.

(** Past its two checks the handler is the loop, run in the world after
    the initial delay. *)
Lemma handle_smart_poll_result_cases fuel p arguments w r w' :
  handle_smart_poll_result fuel p arguments w = Some (r, w') →
  (w' = w ∧ r = Returned ApiKeyRequired ∧ truthy_str (get_api_key p) = false)
  ∨ (w' = w ∧ r = Returned RequestIdRequired
     ∧ truthy (get arguments "request_id" JNull) = false)
  ∨ ∃ api_key,
      get_api_key p = Some api_key
      ∧ while_true fuel
          (poll_once (poll_url p (get arguments "request_id" JNull)) api_key
             (get arguments "request_id" JNull)
             (clock (waited (get arguments "request_id" JNull) w)))
          (waited (get arguments "request_id" JNull) w)
        = Some (r, w').
Proof.
  rewrite handle_smart_poll_result_unfold. cbv zeta.
  destruct (truthy_str (get_api_key p)) eqn:Hkey; simpl;
    [|intros [= <- <-]; by left].
  destruct (truthy _) eqn:Hid; simpl; [|intros [= <- <-]; right; by left].
  intros Hrun. right; right.
  destruct (get_api_key p) as [api_key|]; [|discriminate]. by exists api_key.
Qed.

(** X11. What an outcome of the polling handler says about the last
    reply: completed and failed are returned only for an object whose
    lowered status is success or completed, or failed or error, and they
    return that object whole; the timeout-pending payload is built from
    the last object polled, whose status is not terminal; an API error
    and a request error after timeout carry the last reply's error; the
    two precondition outcomes come with an unchanged world. *)
Theorem outcome_reflects_last_reply
    (fuel : nat) (p : process) (arguments : gmap string json) (w w' : world) (o : outcome) :
  handle_smart_poll_result fuel p arguments w = Some (Returned o, w') →
  match o with
  | ApiKeyRequired => truthy_str (get_api_key p) = false ∧ w' = w
  | RequestIdRequired => truthy (get arguments "request_id" JNull) = false ∧ w' = w
  | _ => outcome_of_reply (get arguments "request_id" JNull) o (last_reply w w')
  end.
Proof.
  intros Hrun.
  apply handle_smart_poll_result_cases in Hrun
    as [(-> & [= ->] & Hkey)|[(-> & [= ->] & Hid)|(api_key & Hkey & Hrun)]];
    [done|done|].
  apply while_true_last in Hrun as (wl & Hl & Hnet & Hreq & _).
  pose proof (poll_once_requests _ _ _ _ _ _ _ Hl) as [Hg _].
  apply poll_once_outcome in Hl as [Hout _].
  assert (last_reply w w' = next_reply wl) as ->.
  { unfold last_reply, next_reply. rewrite Hg, Hnet. done. }
  by destruct o.
Qed.



Lemma outcome_reflects_last_reply_witness :
  ∃ w', handle_smart_poll_result 9 (set_api_key "k" (at_import ∅))
          {[ "request_id" := JStr "r" ]} retry_world
        = Some (Returned (Failed (JObj failed_body)), w')
        ∧ outcome_of_reply (JStr "r") (Failed (JObj failed_body))
            (last_reply retry_world w').
Proof.
  eexists. split; [vm_compute; reflexivity|].
  exact (outcome_reflects_last_reply 9 (set_api_key "k" (at_import ∅))
           {[ "request_id" := JStr "r" ]} retry_world _ (Failed (JObj failed_body))
           eq_refl).
Defined.


